(** * Analytic Prototype: the transaction proxy and the dashboard client

    A shallow embedding of [backend/main.py] (the FastAPI proxy in front of
    the Helius address-indexing API) and of the fetch, cache and filter
    helpers of [frontend_streamlit/app.py], with the properties of the
    simplification, error mapping, caching and filtering pipeline. *)

From Stdlib Require Import ZArith String Ascii List Bool QArith Lqa.
From Stdlib Require Import Floats.SpecFloat.
From stdpp Require Import base option list gmap strings pretty sorting.

Local Set Warnings "-register-all".

Local Open Scope Z_scope.
Local Open Scope string_scope.

(* ===================================================================== *)
(** ** Python values decoded from JSON *)
(* ===================================================================== *)

Module Py.

(** What [resp.json()] hands to the program: [None], [bool], [int], [float],
    [str], [list] and [dict].  A [dict] keeps its insertion order and has
    distinct keys; it is an association list read by its first binding.
    A [float] is an IEEE-754 datum; the program never computes with it and
    only tests it for truth. *)
Inductive json : Type :=
| JNull
| JBool (b : bool)
| JInt (n : Z)
| JFloat (f : spec_float)
| JStr (s : string)
| JList (l : list json)
| JDict (d : list (string * json)).

(** The two built-in exceptions the dynamically typed accesses can raise. *)
Inductive pyexn : Type :=
| TypeError        (* iterating a value that is not iterable *)
| AttributeError.  (* calling [.get] on a value that is not a dict *)

Inductive res (A : Type) : Type :=
| Ok (a : A)
| Raise (e : pyexn).
Arguments Ok {A} a.
Arguments Raise {A} e.

Definition bind {A B} (m : res A) (k : A -> res B) : res B :=
  match m with
  | Ok a => k a
  | Raise e => Raise e
  end.

Notation "x <- m ;; k" := (bind m (fun x => k))
  (at level 100, m at next level, right associativity).

(** [bool(v)]: Python truth value testing. *)
Definition truthy (v : json) : bool :=
  match v with
  | JNull => false
  | JBool b => b
  | JInt n => negb (Z.eqb n 0)
  | JFloat (S754_zero _) => false
  | JFloat _ => true
  | JStr s => negb (String.eqb s "")
  | JList l => match l with [] => false | _ => true end
  | JDict d => match d with [] => false | _ => true end
  end.

(** [a or b] *)
Definition py_or (a b : json) : json := if truthy a then a else b.

Fixpoint dict_lookup (d : list (string * json)) (k : string) : option json :=
  match d with
  | [] => None
  | (k', v) :: rest => if String.eqb k' k then Some v else dict_lookup rest k
  end.

(** [v.get(k, default)]; only a dict has the method. *)
Definition get_default (v : json) (k : string) (default : json) : res json :=
  match v with
  | JDict d => Ok (match dict_lookup d k with Some x => x | None => default end)
  | _ => Raise AttributeError
  end.

(** [v.get(k)] is [v.get(k, None)]. *)
Definition get (v : json) (k : string) : res json := get_default v k JNull.

Definition chars (s : string) : list json :=
  map (fun c => JStr (String c EmptyString)) (list_ascii_of_string s).

(** [for x in v]: the sequence a [for] loop walks.  A list gives its
    elements, a dict its keys, a string its one-character strings (one per
    character of the [string] that stands for it); nothing else is
    iterable. *)
Definition iter (v : json) : res (list json) :=
  match v with
  | JList l => Ok l
  | JDict d => Ok (map (fun kv => JStr (fst kv)) d)
  | JStr s => Ok (chars s)
  | _ => Raise TypeError
  end.

Definition keys (v : json) : option (list string) :=
  match v with
  | JDict d => Some (map fst d)
  | _ => None
  end.

End Py.

Import Py.

(* ===================================================================== *)
(** ** backend/main.py: the simplification loop *)
(* ===================================================================== *)

Module Backend.

(** The body of the inner loop for one balance-change entry [ch]:
    [Some record] when the entry is appended to [token_changes], [None] when
    it is skipped. *)
Definition token_change (ch : json) : res (option json) :=
  ti <- get ch "tokenInfo" ;;
  let token_info := py_or ti (JDict []) in
  symbol <- get token_info "symbol" ;;
  if truthy symbol then
    amount <- get ch "tokenAmount" ;;
    owner <- get ch "account" ;;
    Ok (Some (JDict [("symbol", symbol); ("amount", amount); ("owner", owner)]))
  else Ok None.

(** [for ch in ...: ... token_changes.append(...)], the list under
    construction threaded through the iterations. *)
Fixpoint token_changes_loop (chs : list json) (token_changes : list json)
  : res (list json) :=
  match chs with
  | [] => Ok token_changes
  | ch :: rest =>
      r <- token_change ch ;;
      token_changes_loop rest
        (match r with
         | Some rec => token_changes ++ [rec]
         | None => token_changes
         end)
  end.

(** The body of the outer loop for one raw transaction [tx]. *)
Definition simplify_tx (tx : json) : res json :=
  bc <- get_default tx "balanceChanges" (JList []) ;;
  chs <- iter bc ;;
  token_changes <- token_changes_loop chs [] ;;
  signature <- get tx "signature" ;;
  timestamp <- get tx "timestamp" ;;
  type <- get tx "type" ;;
  Ok (JDict [("signature", signature); ("timestamp", timestamp);
             ("type", type); ("token_changes", JList token_changes)]).

Fixpoint slim_loop (txs : list json) (slim : list json) : res (list json) :=
  match txs with
  | [] => Ok slim
  | tx :: rest =>
      s <- simplify_tx tx ;;
      slim_loop rest (slim ++ [s])
  end.

(** Lines 56-76: [slim = []; for tx in txs: ...; return slim]. *)
Definition simplify (txs : json) : res (list json) :=
  l <- iter txs ;;
  slim_loop l [].

(* --------------------------------------------------------------------- *)
(** *** The outbound HTTP call, as the handler sees it *)

(** [resp.json()]: the decoded body, or the decoding error of [requests],
    which is a [RequestException]. *)
Inductive json_outcome : Type :=
| Decoded (v : json)
| JSONDecodeError (msg : string).

Record response : Type := Response {
  status_code : Z;
  text : string;
  json_of : json_outcome
}.

(** [requests.get(url, timeout=...)]: a response of any status, or a
    transport failure (timeout, DNS failure, connection refused) raised as a
    [RequestException] whose [str] is [msg]. *)
Inductive get_outcome : Type :=
| Responded (resp : response)
| RequestException (msg : string).

(** [resp.raise_for_status()] of [requests] raises [HTTPError] exactly for
    the client-error and server-error statuses. *)
Definition raises_for_status (resp : response) : bool :=
  Z.leb 400 (status_code resp) && Z.ltb (status_code resp) 600.

(** How a call of the endpoint ends: the returned list (sent with status
    200), an [HTTPException], or a Python exception no handler catches. *)
Inductive reply : Type :=
| Returned (slim : list json)
| HTTPException (status : Z) (detail : string)
| Unhandled (e : pyexn).

Definition missing_key_detail : string :=
  "HELIUS_API_KEY missing in .env or environment variables".

(** [get_helius_key]; [os.getenv] is a lookup in the process environment,
    and [not key] holds for [None] and for the empty string. *)
Definition get_helius_key (environ : gmap string string) : reply + string :=
  match environ !! "HELIUS_API_KEY" with
  | Some key =>
      if String.eqb key "" then inl (HTTPException 500 missing_key_detail)
      else inr key
  | None => inl (HTTPException 500 missing_key_detail)
  end.

(** [f"{limit}"] for [limit : Optional[int]]. *)
Definition fmt_limit (limit : option Z) : string :=
  match limit with
  | Some n => pretty n
  | None => "None"
  end.

Definition helius_url (address api_key : string) (limit : option Z) : string :=
  "https://api.helius.xyz/v0/addresses/" ++ address ++ "/transactions"
  ++ "?api-key=" ++ api_key ++ "&limit=" ++ fmt_limit limit.

(** What the handler does with the outcome of its one outbound call:
    the [try] block and its two [except] clauses, then the loop. *)
Definition respond (o : get_outcome) : reply :=
  match o with
  | RequestException msg => HTTPException 500 msg
  | Responded resp =>
      if raises_for_status resp
      then HTTPException (status_code resp) (text resp)
      else match json_of resp with
           | JSONDecodeError msg => HTTPException 500 msg
           | Decoded txs =>
               match simplify txs with
               | Ok slim => Returned slim
               | Raise e => Unhandled e
               end
           end
  end.

(** The endpoint [GET /wallet/{address}/txs_simple].  [upstream] answers an
    outbound GET; the second component of the result lists, in order, the
    URLs the handler requested. *)
Definition get_wallet_txs_simple
    (environ : gmap string string) (upstream : string -> get_outcome)
    (address : string) (limit : option Z) : reply * list string :=
  match get_helius_key environ with
  | inl exn => (exn, [])
  | inr api_key =>
      let url := helius_url address api_key limit in
      (respond (upstream url), [url])
  end.

(** The declared default of the [limit] query parameter. *)
Definition default_limit : option Z := Some 3.

End Backend.

Import Backend.

(* ===================================================================== *)
(** ** frontend_streamlit/app.py: fetch, cache, filter *)
(* ===================================================================== *)

Module Frontend.

(** The exceptions of a fetch, as [run_once] tells them apart:
    [requests.HTTPError] from [raise_for_status], and any other
    [requests.RequestException] (a transport failure, or a body that is not
    JSON). *)
Inductive fetch_error : Type :=
| HTTPError (resp : response)
| NetworkError (msg : string).

(** The state a fetch runs in: the entries of Streamlit's data cache for
    [cached_get], each with the time it expires, and the log of the requests
    sent to the backend so far. *)
Record client : Type := Client {
  cache : gmap string (Q * json);
  calls : list string
}.

(** The freshness window of [@st.cache_data(ttl=15)], in seconds. *)
Definition ttl : Q := 15.

(** [requests.get(url, timeout=15)] against the backend, logged. *)
Definition requests_get (backend : string -> get_outcome) (url : string)
    (st : client) : get_outcome * client :=
  (backend url, {| cache := cache st; calls := calls st ++ [url] |}).

(** The function under the decorator:
    [r = requests.get(url, timeout=15); r.raise_for_status(); return r.json()]. *)
Definition cached_get_body (backend : string -> get_outcome) (url : string)
    (st : client) : (fetch_error + json) * client :=
  let '(o, st1) := requests_get backend url st in
  match o with
  | RequestException msg => (inl (NetworkError msg), st1)
  | Responded r =>
      if raises_for_status r then (inl (HTTPError r), st1)
      else match json_of r with
           | Decoded v => (inr v, st1)
           | JSONDecodeError msg => (inl (NetworkError msg), st1)
           end
  end.

(** An entry is served while the clock is before its expiry. *)
Definition fresh (now expires : Q) : bool := negb (Qle_bool expires now).

(** [cached_get] as decorated with [@st.cache_data(ttl=15)], called when the
    clock reads [now] seconds: an entry for [url] that has not expired is
    returned without running the body; otherwise the body runs, and a value
    it returns is stored to expire [ttl] seconds later.  An exception of the
    body propagates and stores nothing. *)
Definition cached_get (backend : string -> get_outcome) (now : Q)
    (url : string) (st : client) : (fetch_error + json) * client :=
  let run :=
    match cached_get_body backend url st with
    | (inr v, st1) =>
        (inr v,
         {| cache := <[url := ((now + ttl)%Q, v)]> (cache st1);
            calls := calls st1 |})
    | (inl e, st1) => (inl e, st1)
    end in
  match cache st !! url with
  | Some (expires, v) => if fresh now expires then (inr v, st) else run
  | None => run
  end.

Definition txs_simple_url (base addr : string) (limit : Z) : string :=
  base ++ "/wallet/" ++ addr ++ "/txs_simple?limit=" ++ pretty limit.

Definition fetch_txs_simple (backend : string -> get_outcome) (now : Q)
    (base addr : string) (limit : Z) (st : client)
  : (fetch_error + json) * client :=
  cached_get backend now (txs_simple_url base addr limit) st.

(* --------------------------------------------------------------------- *)
(** *** The table and its type filter *)

(** One row of the table [render_table] shows, by column.  The [type] cell
    is a category string or missing. *)
Record row : Type := Row {
  col_time : option Z;
  col_type : option string;
  col_token_changes : string;
  col_signature : option string;
  col_solscan : string;
  col_timestamp : option Z
}.

(** [Series.dropna()] on the type column. *)
Definition dropna (col : list (option string)) : list string := omap id col.

(** [Series.unique()]: the distinct values in order of first appearance. *)
Fixpoint unique (l : list string) : list string :=
  match l with
  | [] => []
  | x :: rest => x :: List.filter (fun y => negb (String.eqb x y)) (unique rest)
  end.

Definition str_le (x y : string) : Prop := String.leb x y = true.

#[global] Instance str_le_dec : RelDecision str_le.
Proof. intros x y. unfold str_le. apply _. Defined.

(** [sorted(...)] on strings. *)
Definition sorted (l : list string) : list string := merge_sort str_le l.

(** [view["type"].dropna().unique().tolist()], sorted: the filter options. *)
Definition type_options (view : list row) : list string :=
  sorted (unique (dropna (List.map col_type view))).

(** [st.multiselect(label, options, default=...)]: the selection the user
    made in the widget, or the default while the widget is untouched. *)
Definition multiselect (options default : list string)
    (selection : option (list string)) : list string :=
  match selection with
  | Some chosen => chosen
  | None => default
  end.

(** [Series.isin(chosen)] on one cell; a missing cell is in no list of
    strings. *)
Definition isin (cell : option string) (chosen : list string) : bool :=
  match cell with
  | Some t => existsb (String.eqb t) chosen
  | None => false
  end.

(** What [render_table] puts on the page: the notice for an empty table, or
    the filter widget with its options and selection above the rows kept. *)
Inductive page : Type :=
| NoTransactions
| Table (types chosen : list string) (rows : list row).

(** [render_table], lines 133-151: the empty-table guard, the filter
    options, the selection and the row filter. *)
Definition render_table (view : list row) (selection : option (list string))
  : page :=
  match view with
  | [] => NoTransactions
  | _ =>
      let types := type_options view in
      let chosen := multiselect types types selection in
      Table types chosen (List.filter (fun r => isin (col_type r) chosen) view)
  end.

End Frontend.

Import Frontend.

(* ===================================================================== *)
(** ** Reference reading of the data *)
(* ===================================================================== *)

(** The vocabulary of the statements below, in the words of the data model:
    total projections of a balance-change entry, with which the
    simplification reads as a filter followed by a map; the shapes of input
    the loops are written for; and what the cache holds at a given time. *)
Module Reading.

(** Field [k] of an object, [JNull] when the field or the object is absent. *)
Definition field (v : json) (k : string) : json :=
  match v with
  | JDict d => match dict_lookup d k with Some x => x | None => JNull end
  | _ => JNull
  end.

Definition symbol_of (ch : json) : json := field (field ch "tokenInfo") "symbol".

(** The symbol field exists and is not null. *)
Definition symbol_present (ch : json) : bool :=
  match symbol_of ch with
  | JNull => false
  | _ => true
  end.

(** The symbol is a true value: not null, not the empty string, not zero,
    not false, not an empty list or object. *)
Definition retained (ch : json) : bool := truthy (symbol_of ch).

Definition record_of (ch : json) : json :=
  JDict [("symbol", symbol_of ch);
         ("amount", field ch "tokenAmount");
         ("owner", field ch "account")].

(** The sequence walked by [for ch in tx.get("balanceChanges", [])]. *)
Definition balance_changes (tx : json) : res (list json) :=
  bc <- get_default tx "balanceChanges" (JList []) ;;
  iter bc.

Definition is_dict (v : json) : bool :=
  match v with
  | JDict _ => true
  | _ => false
  end.

(** An entry is an object whose [tokenInfo] is missing, false in the sense
    of [truthy] (null included), or an object. *)
Definition well_formed_change (ch : json) : bool :=
  match ch with
  | JDict d =>
      match dict_lookup d "tokenInfo" with
      | None => true
      | Some ti => negb (truthy ti) || is_dict ti
      end
  | _ => false
  end.

(** A transaction is an object whose [balanceChanges] is missing or a list
    of well-formed entries. *)
Definition well_formed_tx (tx : json) : bool :=
  match tx with
  | JDict d =>
      match dict_lookup d "balanceChanges" with
      | None => true
      | Some (JList chs) => forallb well_formed_change chs
      | Some _ => false
      end
  | _ => false
  end.

(** What the dashboard's cache serves for [url] when the clock reads [now]:
    the value of an entry that has not expired. *)
Definition served (now : Q) (url : string) (st : client) : option json :=
  match cache st !! url with
  | Some (expires, v) => if fresh now expires then Some v else None
  | None => None
  end.

End Reading.

Import Reading.

(* ===================================================================== *)
(** ** Shapes of input the loops accept or reject *)
(* ===================================================================== *)

Module Shapes.

(** The values a [for] loop cannot walk: [None], booleans and numbers. *)
Definition not_iterable (v : json) : bool :=
  match v with
  | JNull | JBool _ | JInt _ | JFloat _ => true
  | JStr _ | JList _ | JDict _ => false
  end.

(** A transaction the outer loop body gets through: an object whose
    [balanceChanges], an empty list when missing, can be walked, every
    element walked being a well-formed entry. *)
Definition simplifiable (tx : json) : bool :=
  match tx with
  | JDict d =>
      match iter (default (JList []) (dict_lookup d "balanceChanges")) with
      | Ok chs => forallb well_formed_change chs
      | Raise _ => false
      end
  | _ => false
  end.

(** The fields of a raw transaction and of a balance-change entry that the
    loops read. *)
Definition tx_fields : list string :=
  ["balanceChanges"; "signature"; "timestamp"; "type"].

Definition change_fields : list string :=
  ["tokenInfo"; "tokenAmount"; "account"].

End Shapes.

Import Shapes.

(* ===================================================================== *)
(** ** Sample data *)
(* ===================================================================== *)

Module Sample.

(** 1.5 and 2.0 as binary floating-point data. *)
Definition f1_5 : spec_float := S754_finite false 3 (-1).
Definition f2_0 : spec_float := S754_finite false 1 1.

Definition ch_sol : json :=
  JDict [("tokenInfo", JDict [("symbol", JStr "SOL")]);
         ("tokenAmount", JFloat f1_5); ("account", JStr "A1")].

Definition ch_nosym : json :=
  JDict [("tokenAmount", JFloat f2_0); ("account", JStr "A2")].

(** An entry of a token whose metadata carries an empty symbol. *)
Definition ch_empty_symbol : json :=
  JDict [("tokenInfo", JDict [("symbol", JStr "")]);
         ("tokenAmount", JInt 7); ("account", JStr "A3")].

(** An entry with a symbol and nothing else. *)
Definition ch_symbol_only : json :=
  JDict [("tokenInfo", JDict [("symbol", JStr "USDC")])].

(** An entry whose [tokenInfo] is a string instead of an object. *)
Definition ch_string_info : json :=
  JDict [("tokenInfo", JStr "SOL"); ("tokenAmount", JInt 1)].

Definition tx_s1 : json :=
  JDict [("signature", JStr "S1"); ("timestamp", JInt 1700000000);
         ("type", JStr "TRANSFER");
         ("balanceChanges", JList [ch_sol; ch_nosym])].

Definition slim_s1 : json :=
  JDict [("signature", JStr "S1"); ("timestamp", JInt 1700000000);
         ("type", JStr "TRANSFER");
         ("token_changes",
          JList [JDict [("symbol", JStr "SOL"); ("amount", JFloat f1_5);
                        ("owner", JStr "A1")]])].

Definition tx_of_changes (chs : list json) : json :=
  JDict [("signature", JStr "S2"); ("balanceChanges", JList chs)].

(** *** The endpoint's surroundings *)

Definition env_with_key : gmap string string := {[ "HELIUS_API_KEY" := "k-123" ]}.

Definition env_rotated : gmap string string := {[ "HELIUS_API_KEY" := "k-456" ]}.

Definition wallet : string := "So11111111111111111111111111111111111111112".

Definition wallet_url : string := helius_url wallet "k-123" default_limit.

(** An upstream that answers every request with the same outcome. *)
Definition always (o : get_outcome) : string -> get_outcome := fun _ => o.

Definition not_found : response :=
  {| status_code := 404; text := "not found";
     json_of := JSONDecodeError "Expecting value: line 1 column 1 (char 0)" |}.

(** A response that is neither a success nor an error for
    [raise_for_status]: 300 Multiple Choices with an empty JSON array. *)
Definition multiple_choices : response :=
  {| status_code := 300; text := "[]"; json_of := Decoded (JList []) |}.

Definition ok_s1 : response :=
  {| status_code := 200; text := "[...]";
     json_of := Decoded (JList [tx_s1]) |}.

Definition timed_out : get_outcome :=
  RequestException "Read timed out. (read timeout=10)".

(** *** The dashboard's surroundings *)

Definition base_url : string := "http://127.0.0.1:8000".

Definition url10 : string := txs_simple_url base_url wallet 10.

Definition fresh_client : client := {| cache := ∅; calls := [] |}.

(** The client after a fetch at time 0 that went to the backend and got an
    empty list. *)
Definition client_after_fetch : client :=
  {| cache := {[ url10 := ((0 + ttl)%Q, JList []) ]}; calls := [url10] |}.

(** A backend that cannot be reached. *)
Definition unreachable : string -> get_outcome :=
  fun _ => RequestException "Connection refused".

(** A backend that answers with an empty list. *)
Definition answering : string -> get_outcome :=
  fun _ => Responded {| status_code := 200; text := "[]";
                        json_of := Decoded (JList []) |}.

Definition row_transfer : row :=
  {| col_time := Some 1700000000; col_type := Some "TRANSFER";
     col_token_changes := "1.5 SOL"; col_signature := Some "S1";
     col_solscan := "https://solscan.io/tx/S1";
     col_timestamp := Some 1700000000 |}.

Definition row_swap : row :=
  {| col_time := Some 1700000100; col_type := Some "SWAP";
     col_token_changes := "-"; col_signature := Some "S2";
     col_solscan := "https://solscan.io/tx/S2";
     col_timestamp := Some 1700000100 |}.

(** A row of a transaction for which upstream sent no type. *)
Definition row_untyped : row :=
  {| col_time := Some 1700000200; col_type := None;
     col_token_changes := "-"; col_signature := Some "S3";
     col_solscan := "https://solscan.io/tx/S3";
     col_timestamp := Some 1700000200 |}.

End Sample.

(* ===================================================================== *)
(** ** The simplification loops against the reference reading *)
(* ===================================================================== *)

Section Simplification.

(** Only a dict has [get]: every other shape of [v] raises at once. *)
Ltac dict_or_raise v d :=
  destruct v as [| | | | | |d]; try discriminate; try reflexivity.

(** One iteration of the inner loop: it raises exactly on an entry that is
    not well formed, and otherwise does what the reference reading says. *)
Lemma token_change_spec ch :
  token_change ch =
  if well_formed_change ch
  then Ok (if retained ch then Some (record_of ch) else None)
  else Raise AttributeError.
Proof.
  dict_or_raise ch d.
  unfold token_change, well_formed_change, retained, record_of, symbol_of,
    get, get_default, field, py_or.
  cbn [bind].
  destruct (dict_lookup d "tokenInfo") as [ti|]; [|reflexivity].
  destruct ti as [|b|n|f|s|l|di]; cbn [truthy bind dict_lookup is_dict negb orb].
  all: try (destruct b); try (destruct (Z.eqb n 0)); try (destruct f);
    try (destruct s); try (destruct l);
    cbn [negb orb truthy bind dict_lookup String.eqb]; try reflexivity.
  rewrite orb_true_r.
  destruct di as [|p di]; [reflexivity|].
  cbn [truthy bind].
  match goal with |- context [truthy ?x] => destruct (truthy x) end;
    reflexivity.
Qed.

Lemma token_change_ok ch r :
  token_change ch = Ok r ->
  r = if retained ch then Some (record_of ch) else None.
Proof.
  rewrite token_change_spec.
  destruct (well_formed_change ch); congruence.
Qed.

(** The inner loop appends, in order, the records of the retained entries. *)
Lemma token_changes_loop_spec chs : forall acc,
  token_changes_loop chs acc =
  if forallb well_formed_change chs
  then Ok (acc ++ List.map record_of (List.filter retained chs))%list
  else Raise AttributeError.
Proof.
  induction chs as [|ch chs IH]; intros acc; cbn [token_changes_loop forallb].
  - cbn. by rewrite app_nil_r.
  - rewrite token_change_spec.
    destruct (well_formed_change ch); cbn [bind andb]; [|reflexivity].
    cbn [List.filter].
    destruct (retained ch); rewrite IH; destruct (forallb _ chs);
      try reflexivity.
    cbn [List.map]. by rewrite <- app_assoc.
Qed.

Lemma token_changes_loop_ok chs acc out :
  token_changes_loop chs acc = Ok out ->
  out = (acc ++ List.map record_of (List.filter retained chs))%list.
Proof.
  rewrite token_changes_loop_spec.
  destruct (forallb _ chs); congruence.
Qed.

Lemma filter_retained_length (chs : list json) :
  (length (List.map record_of (List.filter retained chs)) <= length chs)%nat.
Proof.
  rewrite List.length_map.
  induction chs as [|ch chs IH]; cbn [List.filter length]; [lia|].
  destruct (retained ch); cbn [length]; lia.
Qed.

(** The outer loop body on a transaction whose change list can be walked. *)
Lemma simplify_tx_ok tx s :
  simplify_tx tx = Ok s ->
  exists chs,
    balance_changes tx = Ok chs /\
    s = JDict [("signature", field tx "signature");
               ("timestamp", field tx "timestamp");
               ("type", field tx "type");
               ("token_changes",
                JList (List.map record_of (List.filter retained chs)))].
Proof.
  dict_or_raise tx d.
  unfold simplify_tx, balance_changes, get, get_default, field.
  cbn [bind].
  destruct (iter _) as [chs|e]; cbn [bind]; [|discriminate].
  rewrite token_changes_loop_spec.
  destruct (forallb _ chs); cbn [bind]; [|discriminate].
  intros [= <-]. by exists chs.
Qed.

Lemma simplify_tx_well_formed tx :
  well_formed_tx tx = true ->
  exists chs,
    balance_changes tx = Ok chs /\
    simplify_tx tx =
    Ok (JDict [("signature", field tx "signature");
               ("timestamp", field tx "timestamp");
               ("type", field tx "type");
               ("token_changes",
                JList (List.map record_of (List.filter retained chs)))]).
Proof.
  dict_or_raise tx d.
  unfold well_formed_tx, simplify_tx, balance_changes, get, get_default, field.
  cbn [bind].
  destruct (dict_lookup d "balanceChanges") as [bc|].
  - destruct bc as [| | | | |chs|]; try discriminate.
    intros Hwf. exists chs. cbn [iter bind].
    rewrite token_changes_loop_spec, Hwf. by cbn.
  - intros _. exists []. by cbn.
Qed.

(** The outer loop keeps one result per transaction, in order. *)
Lemma slim_loop_ok txs : forall acc slim,
  slim_loop txs acc = Ok slim ->
  exists out,
    slim = (acc ++ out)%list /\ Forall2 (fun tx s => simplify_tx tx = Ok s) txs out.
Proof.
  induction txs as [|tx txs IH]; intros acc slim; cbn [slim_loop].
  - intros [= <-]. exists []. by rewrite app_nil_r.
  - destruct (simplify_tx tx) as [s|e] eqn:Es; cbn [bind]; [|discriminate].
    intros H. destruct (IH _ _ H) as (out & -> & Hall).
    exists (s :: out). split; [by rewrite <- app_assoc | by constructor].
Qed.

Lemma slim_loop_complete txs : forall acc out,
  Forall2 (fun tx s => simplify_tx tx = Ok s) txs out ->
  slim_loop txs acc = Ok (acc ++ out)%list.
Proof.
  induction txs as [|tx txs IH]; intros acc out Hall; inversion Hall; subst;
    cbn [slim_loop].
  - by rewrite app_nil_r.
  - match goal with H : simplify_tx tx = _ |- _ => rewrite H end.
    cbn [bind]. erewrite IH by eassumption. by rewrite <- app_assoc.
Qed.

End Simplification.

(* ===================================================================== *)
(** ** Properties of the simplification *)
(* ===================================================================== *)

(** The end-to-end scenario: one transfer with a SOL change and a change
    without token metadata. *)
Example simplify_end_to_end :
  simplify (JList [Sample.tx_s1]) = Ok [Sample.slim_s1].
Proof. reflexivity. Qed.

(** An entry whose symbol field is there but empty is dropped: its symbol is
    present, yet [token_changes] is empty and not the one-record list that
    keeping every entry with a present symbol would give. *)
Lemma present_empty_symbol_dropped :
  symbol_present Sample.ch_empty_symbol = true /\
  balance_changes (Sample.tx_of_changes [Sample.ch_empty_symbol]) =
  Ok [Sample.ch_empty_symbol] /\
  simplify_tx (Sample.tx_of_changes [Sample.ch_empty_symbol]) =
  Ok (JDict [("signature", JStr "S2"); ("timestamp", JNull); ("type", JNull);
             ("token_changes", JList [])]) /\
  JList [] <>
  JList (List.map record_of
           (List.filter symbol_present [Sample.ch_empty_symbol])).
Proof. repeat split. discriminate. Qed.

(** C1, amended.  Whenever a raw transaction is simplified, its
    [token_changes] are, in upstream order, the [{symbol, amount, owner}]
    records of exactly those balance-change entries whose symbol is a true
    value; an entry whose symbol is missing, null, or otherwise false (such
    as the empty string) is excluded. *)
Theorem token_changes_keep_truthy_symbols tx s :
  simplify_tx tx = Ok s ->
  exists chs,
    balance_changes tx = Ok chs /\
    get s "token_changes" =
      Ok (JList (List.map record_of (List.filter retained chs))) /\
    (forall ch, In ch chs -> symbol_present ch = false -> retained ch = false) /\
    (forall rec, In rec (List.map record_of (List.filter retained chs)) <->
                 exists ch, In ch chs /\ retained ch = true /\ rec = record_of ch).
Proof.
  intros H. destruct (simplify_tx_ok _ _ H) as (chs & Hbc & ->).
  exists chs. repeat split; [done | | |].
  - intros ch _. unfold symbol_present, retained.
    by destruct (symbol_of ch).
  - intros Hin. apply List.in_map_iff in Hin as (ch & <- & Hf).
    apply List.filter_In in Hf as [? ?]. by exists ch.
  - intros (ch & Hin & Hr & ->). apply List.in_map.
    by apply List.filter_In.
Qed.

Lemma token_changes_keep_truthy_symbols_witness :
  exists chs,
    balance_changes Sample.tx_s1 = Ok chs /\
    get Sample.slim_s1 "token_changes" =
      Ok (JList (List.map record_of (List.filter retained chs))) /\
    (forall ch, In ch chs -> symbol_present ch = false -> retained ch = false) /\
    (forall rec, In rec (List.map record_of (List.filter retained chs)) <->
                 exists ch, In ch chs /\ retained ch = true /\ rec = record_of ch).
Proof.
  apply (token_changes_keep_truthy_symbols Sample.tx_s1 Sample.slim_s1).
  reflexivity.
Defined.

(** A [tokenInfo] that is a string instead of an object makes the loop raise:
    the string has no [get]. *)
Lemma string_token_info_raises :
  simplify_tx (Sample.tx_of_changes [Sample.ch_string_info]) =
  Raise AttributeError.
Proof. reflexivity. Qed.

(** C2, amended.  For every raw transaction object whose [balanceChanges] is
    missing or a list of objects, each with a [tokenInfo] that is missing,
    null (or otherwise false) or an object, the simplification does not
    raise; a missing [signature], [timestamp] or [type] becomes [None], and
    a missing change list gives an empty [token_changes]. *)
Theorem simplify_tx_defaults d :
  well_formed_tx (JDict d) = true ->
  exists tc,
    simplify_tx (JDict d) =
    Ok (JDict [("signature", default JNull (dict_lookup d "signature"));
               ("timestamp", default JNull (dict_lookup d "timestamp"));
               ("type", default JNull (dict_lookup d "type"));
               ("token_changes", JList tc)]) /\
    (dict_lookup d "balanceChanges" = None -> tc = []).
Proof.
  intros Hwf.
  destruct (simplify_tx_well_formed _ Hwf) as (chs & Hbc & Hs).
  eexists. split; [exact Hs|].
  intros Hnone. revert Hbc.
  unfold balance_changes, get_default. rewrite Hnone. cbn.
  by intros [= <-].
Qed.

Lemma simplify_tx_defaults_witness :
  exists tc,
    simplify_tx (JDict [("signature", JStr "S3");
                        ("balanceChanges",
                         JList [JDict [("tokenInfo", JNull)]])]) =
    Ok (JDict [("signature", JStr "S3"); ("timestamp", JNull);
               ("type", JNull); ("token_changes", JList tc)]) /\
    (dict_lookup [("signature", JStr "S3");
                  ("balanceChanges", JList [JDict [("tokenInfo", JNull)]])]
       "balanceChanges" = None -> tc = []).
Proof.
  apply (simplify_tx_defaults
           [("signature", JStr "S3");
            ("balanceChanges", JList [JDict [("tokenInfo", JNull)]])]).
  reflexivity.
Defined.

(** The empty object has every field missing. *)
Example simplify_tx_empty_object :
  simplify_tx (JDict []) =
  Ok (JDict [("signature", JNull); ("timestamp", JNull); ("type", JNull);
             ("token_changes", JList [])]).
Proof. reflexivity. Qed.

(** C6.  For an upstream array the proxy returns a list with one simplified
    transaction per raw transaction, in upstream order; the [token_changes]
    of each are the records of a subsequence of its balance-change entries,
    in their order, hence no longer than the entries. *)
Theorem simplify_one_per_transaction txs slim :
  simplify (JList txs) = Ok slim ->
  length slim = length txs /\
  Forall2
    (fun tx s =>
       simplify_tx tx = Ok s /\
       exists chs tc,
         balance_changes tx = Ok chs /\
         get s "token_changes" = Ok (JList tc) /\
         tc = List.map record_of (List.filter retained chs) /\
         (length tc <= length chs)%nat)
    txs slim.
Proof.
  unfold simplify. cbn [iter bind]. intros H.
  destruct (slim_loop_ok _ _ _ H) as (out & -> & Hall).
  cbn [app]. split; [symmetry; eapply Forall2_length; eassumption|].
  eapply Forall2_impl; [exact Hall|].
  intros tx s Hs. split; [exact Hs|].
  destruct (simplify_tx_ok _ _ Hs) as (chs & Hbc & ->).
  exists chs, (List.map record_of (List.filter retained chs)).
  repeat split; [done | apply filter_retained_length].
Qed.

Lemma simplify_one_per_transaction_witness :
  length [Sample.slim_s1; Sample.slim_s1] =
  length [Sample.tx_s1; Sample.tx_s1] /\
  Forall2
    (fun tx s =>
       simplify_tx tx = Ok s /\
       exists chs tc,
         balance_changes tx = Ok chs /\
         get s "token_changes" = Ok (JList tc) /\
         tc = List.map record_of (List.filter retained chs) /\
         (length tc <= length chs)%nat)
    [Sample.tx_s1; Sample.tx_s1] [Sample.slim_s1; Sample.slim_s1].
Proof.
  apply (simplify_one_per_transaction [Sample.tx_s1; Sample.tx_s1]).
  reflexivity.
Defined.

(** The array is simplified exactly when each of its transactions is. *)
Lemma simplify_list_iff txs slim :
  simplify (JList txs) = Ok slim <->
  Forall2 (fun tx s => simplify_tx tx = Ok s) txs slim.
Proof.
  unfold simplify. cbn [iter bind]. split.
  - intros H. destruct (slim_loop_ok _ _ _ H) as (out & -> & Hall). exact Hall.
  - intros Hall. by rewrite (slim_loop_complete _ [] _ Hall).
Qed.

(** C10.  Every simplified transaction is an object with exactly the keys
    [signature], [timestamp], [type], [token_changes], and every element of
    its [token_changes] is an object with exactly the keys [symbol],
    [amount], [owner]; this holds for the empty object, and an entry with a
    symbol and neither amount nor account gives a record whose [amount] and
    [owner] are null. *)
Theorem simplified_shape :
  (forall tx s,
     simplify_tx tx = Ok s ->
     keys s = Some ["signature"; "timestamp"; "type"; "token_changes"] /\
     exists tc,
       get s "token_changes" = Ok (JList tc) /\
       Forall (fun rec => keys rec = Some ["symbol"; "amount"; "owner"]) tc) /\
  (exists s,
     simplify_tx (JDict []) = Ok s /\
     keys s = Some ["signature"; "timestamp"; "type"; "token_changes"]) /\
  token_change Sample.ch_symbol_only =
  Ok (Some (JDict [("symbol", JStr "USDC"); ("amount", JNull);
                   ("owner", JNull)])).
Proof.
  split; [|split].
  - intros tx s Hs. destruct (simplify_tx_ok _ _ Hs) as (chs & _ & ->).
    split; [reflexivity|]. eexists. split; [reflexivity|].
    apply Forall_forall. intros rec Hin.
    apply list_elem_of_In, List.in_map_iff in Hin as (ch & <- & _).
    reflexivity.
  - eexists. split; reflexivity.
  - reflexivity.
Qed.

Lemma simplified_shape_witness :
  keys Sample.slim_s1 = Some ["signature"; "timestamp"; "type"; "token_changes"] /\
  exists tc,
    get Sample.slim_s1 "token_changes" = Ok (JList tc) /\
    Forall (fun rec => keys rec = Some ["symbol"; "amount"; "owner"]) tc.
Proof.
  apply (proj1 simplified_shape Sample.tx_s1 Sample.slim_s1).
  reflexivity.
Defined.

(* ===================================================================== *)
(** ** Properties of the endpoint *)
(* ===================================================================== *)

(** C3.  With no credential in the environment the endpoint answers
    HTTP 500 with the message that the key is missing, and requests
    nothing from upstream. *)
Theorem missing_credential_is_500
    (environ : gmap string string) (upstream : string -> get_outcome)
    (address : string) (limit : option Z) :
  environ !! "HELIUS_API_KEY" = None ->
  get_wallet_txs_simple environ upstream address limit =
  (HTTPException 500 "HELIUS_API_KEY missing in .env or environment variables",
   []).
Proof.
  intros Hnone. unfold get_wallet_txs_simple, get_helius_key.
  by rewrite Hnone.
Qed.

Lemma missing_credential_is_500_witness :
  get_wallet_txs_simple ∅ (Sample.always (Responded Sample.not_found))
    Sample.wallet default_limit =
  (HTTPException 500 "HELIUS_API_KEY missing in .env or environment variables",
   []).
Proof.
  apply (missing_credential_is_500 ∅ (Sample.always (Responded Sample.not_found))).
  reflexivity.
Defined.

(** An empty credential counts as missing as well. *)
Lemma empty_credential_is_500 environ upstream address limit :
  environ !! "HELIUS_API_KEY" = Some "" ->
  get_wallet_txs_simple environ upstream address limit =
  (HTTPException 500 missing_key_detail, []).
Proof.
  intros Hk. unfold get_wallet_txs_simple, get_helius_key.
  by rewrite Hk.
Qed.

(** A 300 answer is not passed through: [raise_for_status] lets it by, the
    body is decoded and the endpoint returns the simplified (empty) list. *)
Lemma status_300_not_passed_through :
  status_code Sample.multiple_choices = 300 /\
  fst (get_wallet_txs_simple Sample.env_with_key
         (Sample.always (Responded Sample.multiple_choices))
         Sample.wallet default_limit) = Returned [] /\
  fst (get_wallet_txs_simple Sample.env_with_key
         (Sample.always (Responded Sample.multiple_choices))
         Sample.wallet default_limit) <>
  HTTPException (status_code Sample.multiple_choices) (text Sample.multiple_choices).
Proof. repeat split. discriminate. Qed.

(** C4, amended.  For every upstream response with a 4xx or 5xx status (the
    statuses for which [raise_for_status] raises) the endpoint answers with
    exactly the upstream status code and exactly the upstream body as the
    detail, after a single request. *)
Theorem upstream_error_passed_through
    (environ : gmap string string) (upstream : string -> get_outcome)
    (address : string) (limit : option Z) (key : string) (resp : response) :
  get_helius_key environ = inr key ->
  upstream (helius_url address key limit) = Responded resp ->
  400 <= status_code resp < 600 ->
  get_wallet_txs_simple environ upstream address limit =
  (HTTPException (status_code resp) (text resp),
   [helius_url address key limit]).
Proof.
  intros Hkey Hup [Hlo Hhi]. unfold get_wallet_txs_simple.
  rewrite Hkey. cbn zeta. rewrite Hup. unfold respond, raises_for_status.
  apply Z.leb_le in Hlo. apply Z.ltb_lt in Hhi.
  by rewrite Hlo, Hhi.
Qed.

Lemma upstream_error_passed_through_witness :
  get_wallet_txs_simple Sample.env_with_key
    (Sample.always (Responded Sample.not_found)) Sample.wallet default_limit =
  (HTTPException 404 "not found", [Sample.wallet_url]).
Proof.
  apply (upstream_error_passed_through Sample.env_with_key
           (Sample.always (Responded Sample.not_found)) Sample.wallet
           default_limit "k-123" Sample.not_found).
  - reflexivity.
  - reflexivity.
  - cbn. lia.
Defined.

(** C8.  When the outbound request fails in transport the endpoint answers
    HTTP 500 with the error's message as detail, after a single request. *)
Theorem transport_failure_is_500
    (environ : gmap string string) (upstream : string -> get_outcome)
    (address : string) (limit : option Z) (key msg : string) :
  get_helius_key environ = inr key ->
  upstream (helius_url address key limit) = RequestException msg ->
  get_wallet_txs_simple environ upstream address limit =
  (HTTPException 500 msg, [helius_url address key limit]).
Proof.
  intros Hkey Hup. unfold get_wallet_txs_simple.
  rewrite Hkey. cbn zeta. by rewrite Hup.
Qed.

Lemma transport_failure_is_500_witness :
  get_wallet_txs_simple Sample.env_with_key
    (Sample.always Sample.timed_out)
    Sample.wallet default_limit =
  (HTTPException 500 "Read timed out. (read timeout=10)", [Sample.wallet_url]).
Proof.
  apply (transport_failure_is_500 Sample.env_with_key
           (Sample.always Sample.timed_out)
           Sample.wallet default_limit "k-123").
  - reflexivity.
  - reflexivity.
Defined.

(** C5.  Two calls with the same address and limit whose outbound requests
    get the same upstream outcome give the same reply: the reply is
    [respond] of that outcome, whatever the credential in use. *)
Theorem same_upstream_same_reply
    (env1 env2 : gmap string string) (up1 up2 : string -> get_outcome)
    (address : string) (limit : option Z) (key1 key2 : string)
    (o : get_outcome) :
  get_helius_key env1 = inr key1 ->
  get_helius_key env2 = inr key2 ->
  up1 (helius_url address key1 limit) = o ->
  up2 (helius_url address key2 limit) = o ->
  fst (get_wallet_txs_simple env1 up1 address limit) = respond o /\
  fst (get_wallet_txs_simple env2 up2 address limit) =
  fst (get_wallet_txs_simple env1 up1 address limit).
Proof.
  intros H1 H2 Hu1 Hu2. unfold get_wallet_txs_simple.
  rewrite H1, H2. cbn zeta. cbn [fst]. by rewrite Hu1, Hu2.
Qed.

Lemma same_upstream_same_reply_witness :
  fst (get_wallet_txs_simple Sample.env_with_key
         (Sample.always (Responded Sample.ok_s1))
         Sample.wallet (Some 1)) = respond (Responded Sample.ok_s1) /\
  fst (get_wallet_txs_simple Sample.env_rotated
         (Sample.always (Responded Sample.ok_s1)) Sample.wallet (Some 1)) =
  fst (get_wallet_txs_simple Sample.env_with_key
         (Sample.always (Responded Sample.ok_s1)) Sample.wallet (Some 1)).
Proof.
  apply (same_upstream_same_reply Sample.env_with_key Sample.env_rotated
           (Sample.always (Responded Sample.ok_s1)) (Sample.always (Responded Sample.ok_s1))
           Sample.wallet (Some 1) "k-123" "k-456" (Responded Sample.ok_s1)).
  - reflexivity.
  - reflexivity.
  - reflexivity.
  - reflexivity.
Defined.

(** The end-to-end scenario through the endpoint, with [limit=1]. *)
Example endpoint_end_to_end :
  get_wallet_txs_simple Sample.env_with_key
    (Sample.always (Responded Sample.ok_s1)) Sample.wallet (Some 1) =
  (Returned [Sample.slim_s1], [helius_url Sample.wallet "k-123" (Some 1)]).
Proof. reflexivity. Qed.


(* ===================================================================== *)
(** ** The dashboard's cache *)
(* ===================================================================== *)

Section Cache.

(** One call of [cached_get]: the backend as it answers now, the reading of
    the clock, the URL asked for and the state the call starts in. *)
Context (backend : string -> get_outcome) (now : Q) (url : string)
        (st : client).

Lemma fresh_lt expires : fresh now expires = true <-> (now < expires)%Q.
Proof.
  unfold fresh. rewrite negb_true_iff. split.
  - intros H. apply Qnot_le_lt. intros Hle.
    apply Qle_bool_iff in Hle. congruence.
  - intros H. destruct (Qle_bool expires now) eqn:E; [|done].
    apply Qle_bool_iff in E. by apply Qlt_not_le in H.
Qed.

Lemma cached_get_served v :
  served now url st = Some v ->
  cached_get backend now url st = (inr v, st).
Proof.
  unfold served, cached_get.
  destruct (cache st !! url) as [[e v']|]; [|discriminate].
  destruct (fresh now e); [|discriminate]. by intros [= ->].
Qed.

Lemma cached_get_unserved :
  served now url st = None ->
  cached_get backend now url st =
  match cached_get_body backend url st with
  | (inr v, st1) =>
      (inr v,
       {| cache := <[url := ((now + ttl)%Q, v)]> (cache st1);
          calls := calls st1 |})
  | (inl e, st1) => (inl e, st1)
  end.
Proof.
  unfold served, cached_get.
  destruct (cache st !! url) as [[e v']|]; [|done].
  by destruct (fresh now e).
Qed.

(** The body sends exactly one request and leaves the cache alone. *)
Lemma cached_get_body_calls r st1 :
  cached_get_body backend url st = (r, st1) ->
  cache st1 = cache st /\ calls st1 = (calls st ++ [url])%list.
Proof.
  unfold cached_get_body, requests_get.
  destruct (backend url) as [resp|msg].
  - destruct (raises_for_status resp); [by intros [= <- <-]|].
    destruct (json_of resp); by intros [= <- <-].
  - by intros [= <- <-].
Qed.

(** A value fetched past the cache is stored for [ttl] seconds, after one
    request. *)
Lemma cached_get_stores v st1 :
  served now url st = None ->
  cached_get backend now url st = (inr v, st1) ->
  st1 = {| cache := <[url := ((now + ttl)%Q, v)]> (cache st);
           calls := (calls st ++ [url])%list |}.
Proof.
  intros Hmiss. rewrite (cached_get_unserved Hmiss).
  destruct (cached_get_body backend url st) as [[e|v'] st'] eqn:Eb;
    [discriminate|].
  destruct (cached_get_body_calls _ _ Eb) as [Hc Hl].
  intros [= <- <-]. by rewrite Hc, Hl.
Qed.

(** A fetch past the cache sends exactly one request, whatever comes back. *)
Lemma cached_get_unserved_calls r st1 :
  served now url st = None ->
  cached_get backend now url st = (r, st1) ->
  calls st1 = (calls st ++ [url])%list.
Proof.
  intros Hmiss. rewrite (cached_get_unserved Hmiss).
  destruct (cached_get_body backend url st) as [[e|v'] st'] eqn:Eb;
    destruct (cached_get_body_calls _ _ Eb) as [Hc Hl];
    by intros [= <- <-].
Qed.

(** Any fetch sends at most one request. *)
Lemma cached_get_at_most_one r st1 :
  cached_get backend now url st = (r, st1) ->
  (length (calls st1) <= length (calls st) + 1)%nat.
Proof.
  destruct (served now url st) as [v|] eqn:Es.
  - rewrite (cached_get_served _ Es). intros [= <- <-]. lia.
  - intros H. rewrite (cached_get_unserved_calls _ _ Es H).
    rewrite length_app. cbn. lia.
Qed.

(** After a fetch that returned a value the cache holds it, under an expiry
    that lies ahead. *)
Lemma cached_get_returns v st1 :
  cached_get backend now url st = (inr v, st1) ->
  exists expires,
    cache st1 !! url = Some (expires, v) /\ (now < expires)%Q /\
    (served now url st = None -> expires = (now + 15)%Q).
Proof.
  destruct (served now url st) as [v'|] eqn:Es.
  - rewrite (cached_get_served _ Es). intros [= -> <-].
    revert Es. unfold served.
    destruct (cache st !! url) as [[e w]|]; [|discriminate].
    destruct (fresh now e) eqn:Ef; [|discriminate].
    intros [= ->]. exists e. split; [done|]. split; [|discriminate].
    by apply fresh_lt.
  - intros H. rewrite (cached_get_stores _ _ Es H). cbn [cache].
    exists (now + ttl)%Q. rewrite lookup_insert_eq.
    split; [done|]. split; [unfold ttl; lra | done].
Qed.

End Cache.

(** A fetch that failed caches nothing: two fetches with the same base URL,
    address and limit, one second apart, send two requests to a backend that
    cannot be reached, and the second returns no cached result. *)
Lemma failed_fetch_is_fetched_again :
  (1 < 0 + 15)%Q /\
  fetch_txs_simple Sample.unreachable 0 Sample.base_url Sample.wallet 10
    Sample.fresh_client =
  (inl (NetworkError "Connection refused"),
   {| cache := ∅; calls := [Sample.url10] |}) /\
  fetch_txs_simple Sample.unreachable 1 Sample.base_url Sample.wallet 10
    {| cache := ∅; calls := [Sample.url10] |} =
  (inl (NetworkError "Connection refused"),
   {| cache := ∅; calls := [Sample.url10; Sample.url10] |}) /\
  length [Sample.url10; Sample.url10] = 2%nat.
Proof. repeat split. Qed.

(** C7, amended.  A fetch that returns a result leaves it cached under its
    URL (base URL, address and limit) for a freshness window that ends at
    [expires], 15 seconds after the fetch when it went to the backend.  The
    fetch sent at most one request.  A second fetch with the same parameters
    inside the window returns the cached result and sends no request, so the
    two together send at most one; a fetch once the window has expired sends
    a new request. *)
Theorem fetch_within_window
    (backend1 : string -> get_outcome) (base addr : string) (limit : Z)
    (t1 : Q) (st st1 : client) (v : json) :
  fetch_txs_simple backend1 t1 base addr limit st = (inr v, st1) ->
  exists expires : Q,
    (t1 < expires)%Q /\
    (length (calls st1) <= length (calls st) + 1)%nat /\
    (served t1 (txs_simple_url base addr limit) st = None ->
     expires = (t1 + 15)%Q /\
     calls st1 = (calls st ++ [txs_simple_url base addr limit])%list) /\
    forall (backend2 : string -> get_outcome) (t2 : Q),
      ((t2 < expires)%Q ->
       fetch_txs_simple backend2 t2 base addr limit st1 = (inr v, st1)) /\
      ((expires <= t2)%Q ->
       exists r2 st2,
         fetch_txs_simple backend2 t2 base addr limit st1 = (r2, st2) /\
         calls st2 = (calls st1 ++ [txs_simple_url base addr limit])%list).
Proof.
  unfold fetch_txs_simple. set (url := txs_simple_url base addr limit).
  intros H1.
  destruct (cached_get_returns _ _ _ _ _ _ H1) as (expires & Hlook & Hlt & Hexp).
  exists expires. split; [exact Hlt|].
  split; [eapply cached_get_at_most_one, H1|].
  split.
  - intros Hmiss. split; [by apply Hexp|].
    exact (cached_get_unserved_calls _ _ _ _ _ _ Hmiss H1).
  - intros backend2 t2. split.
    + intros Hin. apply cached_get_served.
      unfold served. rewrite Hlook.
      apply fresh_lt in Hin. by rewrite Hin.
    + intros Hout.
      assert (Hs : served t2 url st1 = None).
      { unfold served. rewrite Hlook.
        destruct (fresh t2 expires) eqn:Ef; [|done].
        apply fresh_lt in Ef. by apply Qlt_not_le in Ef. }
      destruct (cached_get backend2 t2 url st1) as [r2 st2] eqn:E2.
      exists r2, st2. split; [done|].
      exact (cached_get_unserved_calls _ _ _ _ _ _ Hs E2).
Qed.

Lemma fetch_within_window_witness :
  exists expires : Q,
    (0 < expires)%Q /\
    (length (calls Sample.client_after_fetch)
     <= length (calls Sample.fresh_client) + 1)%nat /\
    (served 0 (txs_simple_url Sample.base_url Sample.wallet 10)
       Sample.fresh_client = None ->
     expires = (0 + 15)%Q /\
     calls Sample.client_after_fetch =
     (calls Sample.fresh_client
        ++ [txs_simple_url Sample.base_url Sample.wallet 10])%list) /\
    forall (backend2 : string -> get_outcome) (t2 : Q),
      ((t2 < expires)%Q ->
       fetch_txs_simple backend2 t2 Sample.base_url Sample.wallet 10
         Sample.client_after_fetch =
       (inr (JList []), Sample.client_after_fetch)) /\
      ((expires <= t2)%Q ->
       exists r2 st2,
         fetch_txs_simple backend2 t2 Sample.base_url Sample.wallet 10
           Sample.client_after_fetch = (r2, st2) /\
         calls st2 =
         (calls Sample.client_after_fetch
            ++ [txs_simple_url Sample.base_url Sample.wallet 10])%list).
Proof.
  apply (fetch_within_window Sample.answering Sample.base_url Sample.wallet 10
           0 Sample.fresh_client Sample.client_after_fetch (JList [])).
  reflexivity.
Defined.

(* ===================================================================== *)
(** ** The dashboard's type filter *)
(* ===================================================================== *)

Section Filter.

Lemma elem_of_dropna (col : list (option string)) (t : string) :
  t ∈ dropna col <-> Some t ∈ col.
Proof.
  unfold dropna. rewrite list_elem_of_omap. split.
  - intros (o & Hin & Ho). by destruct o; simplify_eq/=.
  - intros Hin. by exists (Some t).
Qed.

Lemma elem_of_unique (l : list string) (t : string) :
  t ∈ unique l <-> t ∈ l.
Proof.
  induction l as [|x l IH]; cbn [unique]; [done|].
  rewrite !elem_of_cons, list_elem_of_In, List.filter_In, <- list_elem_of_In, IH.
  destruct (String.eqb_spec x t) as [->|Hne]; cbn; [tauto|].
  split; [tauto|]. intros [->|?]; [done|tauto].
Qed.

Lemma NoDup_unique (l : list string) : NoDup (unique l).
Proof.
  induction l as [|x l IH]; cbn [unique]; constructor.
  - rewrite list_elem_of_In, List.filter_In. intros [_ H].
    by rewrite String.eqb_refl in H.
  - apply NoDup_ListNoDup, List.NoDup_filter, NoDup_ListNoDup, IH.
Qed.

Lemma elem_of_type_options (view : list row) (t : string) :
  t ∈ type_options view <-> exists r, r ∈ view /\ col_type r = Some t.
Proof.
  unfold type_options, sorted.
  rewrite merge_sort_Permutation, elem_of_unique, elem_of_dropna.
  rewrite list_elem_of_In, List.in_map_iff.
  split; intros (r & H1 & H2); exists r; split;
    first [done | by apply list_elem_of_In].
Qed.

Lemma NoDup_type_options (view : list row) : NoDup (type_options view).
Proof.
  unfold type_options, sorted.
  rewrite merge_sort_Permutation. apply NoDup_unique.
Qed.

Lemma isin_elem_of (t : string) (chosen : list string) :
  isin (Some t) chosen = true <-> t ∈ chosen.
Proof.
  cbn [isin]. rewrite List.existsb_exists, list_elem_of_In. split.
  - intros (x & Hin & Heq). apply String.eqb_eq in Heq. by subst.
  - intros Hin. exists t. by rewrite String.eqb_refl.
Qed.

Lemma filter_sublist {A} (f : A -> bool) (l : list A) :
  List.filter f l `sublist_of` l.
Proof.
  induction l as [|x l IH]; cbn [List.filter]; [constructor|].
  destruct (f x); by constructor.
Qed.

Lemma render_table_nonempty (view : list row) selection :
  view <> [] ->
  render_table view selection =
  Table (type_options view)
    (multiselect (type_options view) (type_options view) selection)
    (List.filter
       (fun r => isin (col_type r)
                   (multiselect (type_options view) (type_options view)
                      selection))
       view).
Proof. by destruct view. Qed.

End Filter.

(** A row without a type is hidden under the default selection: its type is
    no option, so it is in no selection. *)
Lemma untyped_row_hidden_by_default :
  col_type Sample.row_untyped = None /\
  render_table [Sample.row_transfer; Sample.row_untyped] None =
  Table ["TRANSFER"] ["TRANSFER"] [Sample.row_transfer] /\
  In Sample.row_untyped [Sample.row_transfer; Sample.row_untyped] /\
  ~ In Sample.row_untyped [Sample.row_transfer].
Proof.
  repeat split; [by right; left|].
  intros [H|[]]. discriminate H.
Qed.

(** C9, amended.  The filter options are the distinct type values present in
    the table; the default selection is all of them, and under it every row
    whose type is present stays visible; the rows shown for any selection
    are the rows of the table whose type is selected, a subsequence of the
    table computed from the table and the selection alone. *)
Theorem type_filter_is_subset
    (view : list row) (selection : option (list string))
    (types chosen : list string) (rows : list row) :
  render_table view selection = Table types chosen rows ->
  NoDup types /\
  (forall t, t ∈ types <-> exists r, r ∈ view /\ col_type r = Some t) /\
  (selection = None ->
   chosen = types /\
   forall r, r ∈ view -> is_Some (col_type r) -> r ∈ rows) /\
  rows = List.filter (fun r => isin (col_type r) chosen) view /\
  rows `sublist_of` view.
Proof.
  intros H. destruct view as [|r0 view'] eqn:Ev; [discriminate|].
  rewrite <- Ev in *. rewrite render_table_nonempty in H by (by rewrite Ev).
  clear Ev. injection H as <- <- <-.
  split; [apply NoDup_type_options|].
  split; [apply elem_of_type_options|].
  split; [|split; [reflexivity | apply filter_sublist]].
  intros ->. split; [reflexivity|].
  intros r Hin [t Ht]. cbn [multiselect].
  apply list_elem_of_In, List.filter_In. split; [by apply list_elem_of_In|].
  rewrite Ht. apply isin_elem_of, elem_of_type_options. by exists r.
Qed.

Lemma type_filter_is_subset_witness :
  NoDup ["SWAP"; "TRANSFER"] /\
  (forall t, t ∈ ["SWAP"; "TRANSFER"] <->
             exists r, r ∈ [Sample.row_transfer; Sample.row_swap;
                            Sample.row_untyped] /\
                       col_type r = Some t) /\
  (@None (list string) = None ->
   ["SWAP"; "TRANSFER"] = ["SWAP"; "TRANSFER"] /\
   forall r, r ∈ [Sample.row_transfer; Sample.row_swap; Sample.row_untyped] ->
             is_Some (col_type r) ->
             r ∈ [Sample.row_transfer; Sample.row_swap]) /\
  [Sample.row_transfer; Sample.row_swap] =
  List.filter (fun r => isin (col_type r) ["SWAP"; "TRANSFER"])
    [Sample.row_transfer; Sample.row_swap; Sample.row_untyped] /\
  [Sample.row_transfer; Sample.row_swap]
    `sublist_of` [Sample.row_transfer; Sample.row_swap; Sample.row_untyped].
Proof.
  apply (type_filter_is_subset
           [Sample.row_transfer; Sample.row_swap; Sample.row_untyped] None).
  reflexivity.
Defined.

(* ===================================================================== *)
(** ** Further properties of the simplification *)
(* ===================================================================== *)

Section Loops.

(** The outer loop with a list under construction is the loop from the empty
    list, appended. *)
Lemma slim_loop_acc txs : forall acc,
  slim_loop txs acc = (out <- slim_loop txs [] ;; Ok (acc ++ out)%list).
Proof.
  induction txs as [|tx txs IH]; intros acc; cbn [slim_loop bind].
  - by rewrite app_nil_r.
  - destruct (simplify_tx tx) as [s|e]; cbn [bind]; [|reflexivity].
    rewrite (IH (acc ++ [s])%list), (IH ([] ++ [s])%list).
    destruct (slim_loop txs []) as [out|e]; cbn [bind]; [|reflexivity].
    by rewrite <- app_assoc.
Qed.

Lemma slim_loop_app txs1 txs2 : forall acc,
  slim_loop (txs1 ++ txs2) acc =
  (mid <- slim_loop txs1 acc ;; slim_loop txs2 mid).
Proof.
  induction txs1 as [|tx txs1 IH]; intros acc; cbn [slim_loop app bind];
    [reflexivity|].
  destruct (simplify_tx tx) as [s|e]; cbn [bind]; [apply IH | reflexivity].
Qed.

(** What [simplify_tx] does, case by case. *)
Lemma simplify_tx_spec tx :
  simplify_tx tx =
  match tx with
  | JDict d =>
      match iter (default (JList []) (dict_lookup d "balanceChanges")) with
      | Ok chs =>
          if forallb well_formed_change chs
          then Ok (JDict [("signature", field tx "signature");
                          ("timestamp", field tx "timestamp");
                          ("type", field tx "type");
                          ("token_changes",
                           JList (List.map record_of
                                    (List.filter retained chs)))])
          else Raise AttributeError
      | Raise e => Raise e
      end
  | _ => Raise AttributeError
  end.
Proof.
  destruct tx as [| | | | | |d]; try reflexivity.
  unfold simplify_tx, get, get_default, field. cbn [bind].
  change (match dict_lookup d "balanceChanges" with
          | Some x => x
          | None => JList []
          end) with (default (JList []) (dict_lookup d "balanceChanges")).
  destruct (iter _) as [chs|e]; cbn [bind]; [|reflexivity].
  rewrite token_changes_loop_spec.
  by destruct (forallb _ chs).
Qed.

Lemma iter_raises v e : iter v = Raise e -> e = TypeError /\ not_iterable v = true.
Proof. destruct v; cbn; intros [=]; by subst. Qed.

Lemma not_iterable_raises v : not_iterable v = true -> iter v = Raise TypeError.
Proof. by destruct v. Qed.

(** Reading a key that is not the one added. *)
Lemma dict_lookup_skip d1 d2 k v k' :
  k <> k' ->
  dict_lookup (d1 ++ (k, v) :: d2) k' = dict_lookup (d1 ++ d2) k'.
Proof.
  intros Hne. induction d1 as [|[k0 v0] d1 IH]; cbn [app dict_lookup].
  - destruct (String.eqb_spec k k'); [done | reflexivity].
  - by rewrite IH.
Qed.

(** With distinct keys a binding of the list is what the lookup finds. *)
Lemma dict_lookup_elem_of d k v :
  NoDup d.*1 -> dict_lookup d k = Some v <-> (k, v) ∈ d.
Proof.
  induction d as [|[k0 v0] d IH]; cbn [dict_lookup fmap list_fmap].
  - intros _. split; [discriminate | by intros ?%elem_of_nil].
  - intros [Hk0 Hnd]%NoDup_cons. rewrite elem_of_cons.
    destruct (String.eqb_spec k0 k) as [->|Hne].
    + split; [intros [= ->]; by left|].
      intros [[= ->]|Hin]; [done|]. destruct Hk0.
      apply list_elem_of_fmap. by exists (k, v).
    + rewrite (IH Hnd). split; [by right|].
      intros [[= -> ->]|Hin]; done.
Qed.

Lemma dict_lookup_Permutation d1 d2 k :
  NoDup d1.*1 -> d1 ≡ₚ d2 -> dict_lookup d1 k = dict_lookup d2 k.
Proof.
  intros Hnd Hp.
  assert (Hnd2 : NoDup d2.*1) by (by rewrite <- Hp).
  destruct (dict_lookup d1 k) as [v|] eqn:E1.
  - symmetry. apply (dict_lookup_elem_of _ _ _ Hnd2). rewrite <- Hp.
    by apply (dict_lookup_elem_of _ _ _ Hnd).
  - destruct (dict_lookup d2 k) as [v|] eqn:E2; [|done].
    apply (dict_lookup_elem_of _ _ _ Hnd2) in E2. rewrite <- Hp in E2.
    apply (dict_lookup_elem_of _ _ _ Hnd) in E2. congruence.
Qed.

(** [raise_for_status] raises exactly on the 4xx and 5xx codes. *)
Lemma raises_for_status_range resp :
  raises_for_status resp = true <-> 400 <= status_code resp < 600.
Proof.
  unfold raises_for_status.
  rewrite andb_true_iff, Z.leb_le, Z.ltb_lt. done.
Qed.

End Loops.

(** X1.  The endpoint sends no request exactly when the credential is
    missing or empty; with a credential it sends exactly one request, to the
    URL built from the address, the credential and the limit. *)
Theorem endpoint_request_log
    (environ : gmap string string) (upstream : string -> get_outcome)
    (address : string) (limit : option Z) :
  (snd (get_wallet_txs_simple environ upstream address limit) = [] <->
   environ !! "HELIUS_API_KEY" = None \/
   environ !! "HELIUS_API_KEY" = Some "") /\
  (forall key,
     environ !! "HELIUS_API_KEY" = Some key -> key <> "" ->
     snd (get_wallet_txs_simple environ upstream address limit) =
     [helius_url address key limit]).
Proof.
  unfold get_wallet_txs_simple, get_helius_key.
  destruct (environ !! "HELIUS_API_KEY") as [key|] eqn:Ek.
  - destruct (String.eqb_spec key "") as [->|Hne]; cbn [snd].
    + split; [split; [by right | done]|]. by intros key [= <-] ?.
    + split.
      * split; [discriminate|]. intros [[=]|[=]]. done.
      * by intros key' [= <-] _.
  - cbn [snd]. split; [split; [by left | done] | discriminate].
Qed.

Lemma endpoint_request_log_witness :
  snd (get_wallet_txs_simple Sample.env_with_key
         (Sample.always Sample.timed_out) Sample.wallet default_limit) =
  [helius_url Sample.wallet "k-123" default_limit].
Proof.
  apply (proj2 (endpoint_request_log Sample.env_with_key
                  (Sample.always Sample.timed_out) Sample.wallet
                  default_limit) "k-123").
  - reflexivity.
  - discriminate.
Defined.

(** X2.  Whenever the endpoint answers with an [HTTPException], its status
    code is a client-error or server-error code: 500 of its own, or the
    upstream's 4xx or 5xx code. *)
Theorem endpoint_error_status_range
    (environ : gmap string string) (upstream : string -> get_outcome)
    (address : string) (limit : option Z) (status : Z) (detail : string) :
  fst (get_wallet_txs_simple environ upstream address limit) =
  HTTPException status detail ->
  400 <= status < 600.
Proof.
  unfold get_wallet_txs_simple, get_helius_key.
  destruct (environ !! "HELIUS_API_KEY") as [key|].
  - destruct (String.eqb key ""); cbn [fst]; [intros [= <- _]; lia|].
    unfold respond, raises_for_status.
    destruct (upstream _) as [resp|msg]; [|intros [= <- _]; lia].
    destruct (Z.leb 400 (status_code resp)) eqn:Hlo;
      destruct (Z.ltb (status_code resp) 600) eqn:Hhi; cbn [andb].
    1: { intros [= <- _]. apply Z.leb_le in Hlo. apply Z.ltb_lt in Hhi. lia. }
    all: destruct (json_of resp) as [txs|msg]; [|intros [= <- _]; lia];
      destruct (simplify txs); discriminate.
  - cbn [fst]. intros [= <- _]. lia.
Qed.

Lemma endpoint_error_status_range_witness : 400 <= 404 < 600.
Proof.
  apply (endpoint_error_status_range Sample.env_with_key
           (Sample.always (Responded Sample.not_found)) Sample.wallet
           default_limit 404 "not found").
  reflexivity.
Defined.

(** X3.  The first transaction that cannot be simplified ends the whole
    loop with its exception: the transactions before it do not come back as
    a partial list, and the ones after it are not looked at. *)
Theorem simplify_first_failure
    (good : list json) (outs : list json) (bad : json) (rest : list json)
    (e : pyexn) :
  Forall2 (fun tx s => simplify_tx tx = Ok s) good outs ->
  simplify_tx bad = Raise e ->
  simplify (JList (good ++ bad :: rest)) = Raise e.
Proof.
  intros Hgood Hbad. unfold simplify. cbn [iter bind].
  rewrite slim_loop_app, (slim_loop_complete _ [] _ Hgood).
  cbn [bind slim_loop]. by rewrite Hbad.
Qed.

Lemma simplify_first_failure_witness :
  simplify (JList ([Sample.tx_s1]
                     ++ Sample.tx_of_changes [Sample.ch_string_info]
                     :: [JInt 5])) =
  Raise AttributeError.
Proof.
  apply (simplify_first_failure [Sample.tx_s1] [Sample.slim_s1]).
  - repeat constructor.
  - reflexivity.
Defined.

(** X4.  Simplifying two arrays one after the other is simplifying their
    concatenation: the results are appended, and the first exception is the
    exception of the whole. *)
Theorem simplify_app (txs1 txs2 : list json) :
  simplify (JList (txs1 ++ txs2)) =
  (s1 <- simplify (JList txs1) ;;
   s2 <- simplify (JList txs2) ;;
   Ok (s1 ++ s2)%list).
Proof.
  unfold simplify. cbn [iter bind].
  rewrite slim_loop_app.
  destruct (slim_loop txs1 []) as [s1|e]; cbn [bind]; [|reflexivity].
  apply slim_loop_acc.
Qed.

(** X5.  Every record of [token_changes] carries a symbol that is a true
    value: the output never holds a record with a null or empty symbol. *)
Theorem token_changes_symbols_truthy tx s :
  simplify_tx tx = Ok s ->
  exists tc,
    get s "token_changes" = Ok (JList tc) /\
    Forall (fun rec => exists symbol,
              get rec "symbol" = Ok symbol /\ truthy symbol = true) tc.
Proof.
  intros H. destruct (simplify_tx_ok _ _ H) as (chs & _ & ->).
  eexists. split; [reflexivity|].
  apply Forall_forall. intros rec Hin.
  apply list_elem_of_In, List.in_map_iff in Hin as (ch & <- & Hf).
  apply List.filter_In in Hf as [_ Hr].
  exists (symbol_of ch). by split.
Qed.

Lemma token_changes_symbols_truthy_witness :
  exists tc,
    get Sample.slim_s1 "token_changes" = Ok (JList tc) /\
    Forall (fun rec => exists symbol,
              get rec "symbol" = Ok symbol /\ truthy symbol = true) tc.
Proof.
  apply (token_changes_symbols_truthy Sample.tx_s1 Sample.slim_s1).
  reflexivity.
Defined.

(** X6.  The loop body raises [TypeError] exactly on a transaction object
    whose [balanceChanges] is present and is null, a boolean or a number;
    every other exception it raises is an [AttributeError]. *)
Theorem simplify_tx_type_error_iff tx :
  (simplify_tx tx = Raise TypeError <->
   exists d bc,
     tx = JDict d /\ dict_lookup d "balanceChanges" = Some bc /\
     not_iterable bc = true) /\
  (forall e, simplify_tx tx = Raise e -> e = TypeError \/ e = AttributeError).
Proof.
  rewrite simplify_tx_spec. split.
  - split.
    + destruct tx as [| | | | | |d]; try discriminate.
      destruct (dict_lookup d "balanceChanges") as [bc|] eqn:Ebc;
        cbn [default from_option id].
      * destruct (iter bc) as [chs|e] eqn:Ei; cbv beta iota.
        -- destruct (forallb well_formed_change chs); discriminate.
        -- intros _. exists d, bc. repeat split; [done|].
           by apply iter_raises in Ei as [_ ?].
      * cbn [iter]. cbv beta iota.
        destruct (forallb well_formed_change []); discriminate.
    + intros (d & bc & -> & Ebc & Hni). rewrite Ebc. cbn [default from_option id].
      by rewrite (not_iterable_raises _ Hni).
  - intros e. destruct tx as [| | | | | |d]; try (intros [= <-]; by right).
    destruct (iter _) as [chs|e'] eqn:Ei; cbv beta iota.
    + destruct (forallb well_formed_change chs);
        [discriminate | intros [= <-]; by right].
    + intros [= <-]. left. by apply iter_raises in Ei as [? _].
Qed.

(** X7.  The loop body returns a simplified transaction exactly for a
    transaction object whose [balanceChanges], an empty list when missing,
    can be walked and holds only entries that are objects with a
    [tokenInfo] that is missing, false or an object. *)
Theorem simplify_tx_returns_iff tx :
  (exists s, simplify_tx tx = Ok s) <-> simplifiable tx = true.
Proof.
  rewrite simplify_tx_spec. unfold simplifiable.
  destruct tx as [| | | | | |d]; try (split; [intros [? [=]] | discriminate]).
  destruct (iter _) as [chs|e]; cbv beta iota;
    [|split; [intros [? [=]] | discriminate]].
  destruct (forallb well_formed_change chs); split; try done;
    [by eexists | intros [? [=]]].
Qed.

(** X8.  A body that is not an array: an object or a string makes the
    handler raise [AttributeError] unless it is empty, in which case the
    result is the empty list; null, a boolean or a number raises
    [TypeError]. *)
Theorem simplify_non_array_body :
  (forall d, d <> [] -> simplify (JDict d) = Raise AttributeError) /\
  (forall s, s <> "" -> simplify (JStr s) = Raise AttributeError) /\
  simplify (JDict []) = Ok [] /\
  simplify (JStr "") = Ok [] /\
  (forall v, not_iterable v = true -> simplify v = Raise TypeError).
Proof.
  repeat split.
  - intros [|[k v] d] Hne; [done | reflexivity].
  - intros [|c s] Hne; [done | reflexivity].
  - intros v Hv. unfold simplify. by rewrite (not_iterable_raises _ Hv).
Qed.

Lemma simplify_non_array_body_witness :
  simplify (JDict [("error", JStr "invalid api key")]) = Raise AttributeError.
Proof.
  apply (proj1 simplify_non_array_body [("error", JStr "invalid api key")]).
  discriminate.
Defined.

(** X9.  The simplification reads four fields of a raw transaction; a
    field with any other name, anywhere in the object, changes nothing. *)
Theorem simplify_tx_ignores_other_fields
    (d1 d2 : list (string * json)) (k : string) (v : json) :
  k ∉ tx_fields ->
  simplify_tx (JDict (d1 ++ (k, v) :: d2)) = simplify_tx (JDict (d1 ++ d2)).
Proof.
  intros Hk. unfold tx_fields in Hk.
  assert (Hskip : forall k', k' ∈ tx_fields ->
            dict_lookup (d1 ++ (k, v) :: d2) k' = dict_lookup (d1 ++ d2) k').
  { intros k' Hk'. apply dict_lookup_skip. intros ->. by apply Hk. }
  rewrite !simplify_tx_spec. unfold field.
  rewrite !Hskip by (unfold tx_fields; set_solver).
  reflexivity.
Qed.

Lemma simplify_tx_ignores_other_fields_witness :
  simplify_tx (JDict ([("signature", JStr "S1")]
                        ++ ("slot", JInt 250000000)
                        :: [("type", JStr "TRANSFER")])) =
  simplify_tx (JDict ([("signature", JStr "S1")]
                        ++ [("type", JStr "TRANSFER")])).
Proof.
  apply (simplify_tx_ignores_other_fields
           [("signature", JStr "S1")] [("type", JStr "TRANSFER")]
           "slot" (JInt 250000000)).
  unfold tx_fields. intros H.
  repeat (apply elem_of_cons in H as [H|H]; [discriminate H|]).
  by apply elem_of_nil in H.
Defined.

(** X10.  The order of the fields of a raw transaction does not matter:
    two objects with the same bindings under distinct keys are simplified
    alike. *)
Theorem simplify_tx_field_order (d1 d2 : list (string * json)) :
  NoDup d1.*1 -> d1 ≡ₚ d2 ->
  simplify_tx (JDict d1) = simplify_tx (JDict d2).
Proof.
  intros Hnd Hp. rewrite !simplify_tx_spec. unfold field.
  by rewrite !(dict_lookup_Permutation d1 d2 _ Hnd Hp).
Qed.

Lemma simplify_tx_field_order_witness :
  simplify_tx (JDict [("type", JStr "SWAP"); ("signature", JStr "S9")]) =
  simplify_tx (JDict [("signature", JStr "S9"); ("type", JStr "SWAP")]).
Proof.
  apply simplify_tx_field_order.
  - cbn. apply NoDup_cons. split.
    + intros H. apply elem_of_cons in H as [H|H]; [discriminate H|].
      by apply elem_of_nil in H.
    + apply NoDup_singleton.
  - apply Permutation_swap.
Defined.

(** X11.  The inner loop reads three fields of a balance-change entry; a
    field with any other name, anywhere in the entry, changes nothing. *)
Theorem token_change_ignores_other_fields
    (d1 d2 : list (string * json)) (k : string) (v : json) :
  k ∉ change_fields ->
  token_change (JDict (d1 ++ (k, v) :: d2)) = token_change (JDict (d1 ++ d2)).
Proof.
  intros Hk. unfold change_fields in Hk.
  assert (Hskip : forall k', k' ∈ change_fields ->
            dict_lookup (d1 ++ (k, v) :: d2) k' = dict_lookup (d1 ++ d2) k').
  { intros k' Hk'. apply dict_lookup_skip. intros ->. by apply Hk. }
  unfold token_change, get, get_default. cbn [bind].
  rewrite !Hskip by (unfold change_fields; set_solver).
  reflexivity.
Qed.

Lemma token_change_ignores_other_fields_witness :
  token_change (JDict ([("tokenInfo", JDict [("symbol", JStr "SOL")])]
                         ++ ("mint", JStr "So1111") :: [("account", JStr "A1")])) =
  token_change (JDict ([("tokenInfo", JDict [("symbol", JStr "SOL")])]
                         ++ [("account", JStr "A1")])).
Proof.
  apply (token_change_ignores_other_fields
           [("tokenInfo", JDict [("symbol", JStr "SOL")])]
           [("account", JStr "A1")] "mint" (JStr "So1111")).
  unfold change_fields. intros H.
  repeat (apply elem_of_cons in H as [H|H]; [discriminate H|]).
  by apply elem_of_nil in H.
Defined.

(** X12.  A list the endpoint returns is the simplification of the body
    that upstream sent for the URL of this address, credential and limit,
    under a status that is not a 4xx or 5xx code, after exactly that one
    request. *)
Theorem returned_list_provenance
    (environ : gmap string string) (upstream : string -> get_outcome)
    (address : string) (limit : option Z) (slim : list json)
    (log : list string) :
  get_wallet_txs_simple environ upstream address limit = (Returned slim, log) ->
  exists key resp txs,
    environ !! "HELIUS_API_KEY" = Some key /\
    log = [helius_url address key limit] /\
    upstream (helius_url address key limit) = Responded resp /\
    ~ (400 <= status_code resp < 600) /\
    json_of resp = Decoded txs /\
    simplify txs = Ok slim.
Proof.
  unfold get_wallet_txs_simple, get_helius_key.
  destruct (environ !! "HELIUS_API_KEY") as [key|]; [|discriminate].
  destruct (String.eqb key ""); [discriminate|].
  cbn zeta. intros [= Hr <-]. revert Hr. unfold respond.
  destruct (upstream _) as [resp|msg] eqn:Hup; [|discriminate].
  destruct (raises_for_status resp) eqn:Hs; [discriminate|].
  destruct (json_of resp) as [txs|msg] eqn:Hj; [|discriminate].
  destruct (simplify txs) as [out|e] eqn:Hsim; [|discriminate].
  intros [= <-]. exists key, resp, txs. repeat split; try done.
  intros Hrange. apply raises_for_status_range in Hrange. congruence.
Qed.

Lemma returned_list_provenance_witness :
  exists key resp txs,
    Sample.env_with_key !! "HELIUS_API_KEY" = Some key /\
    [helius_url Sample.wallet "k-123" (Some 1)] =
    [helius_url Sample.wallet key (Some 1)] /\
    Sample.always (Responded Sample.ok_s1)
      (helius_url Sample.wallet key (Some 1)) = Responded resp /\
    ~ (400 <= status_code resp < 600) /\
    json_of resp = Decoded txs /\
    simplify txs = Ok [Sample.slim_s1].
Proof.
  apply (returned_list_provenance Sample.env_with_key
           (Sample.always (Responded Sample.ok_s1)) Sample.wallet (Some 1)).
  reflexivity.
Defined.

(* ===================================================================== *)
(** ** Further properties of the dashboard's cache *)
(* ===================================================================== *)

Section Fetch.

Context (backend : string -> get_outcome) (now : Q) (url : string)
        (st : client).

(** A fetch that ends in an exception went past the cache. *)
Lemma cached_get_error_unserved e st1 :
  cached_get backend now url st = (inl e, st1) -> served now url st = None.
Proof.
  destruct (served now url st) as [v|] eqn:Es; [|done].
  by rewrite (cached_get_served _ _ _ _ _ Es).
Qed.

(** How the body's result reflects the backend's answer. *)
Lemma cached_get_body_result r st1 :
  cached_get_body backend url st = (r, st1) ->
  match r with
  | inr v =>
      exists resp, backend url = Responded resp /\
                   raises_for_status resp = false /\
                   json_of resp = Decoded v
  | inl (HTTPError resp) =>
      backend url = Responded resp /\ raises_for_status resp = true
  | inl (NetworkError msg) =>
      backend url = RequestException msg \/
      exists resp, backend url = Responded resp /\
                   raises_for_status resp = false /\
                   json_of resp = JSONDecodeError msg
  end.
Proof.
  unfold cached_get_body, requests_get.
  destruct (backend url) as [resp|msg].
  - destruct (raises_for_status resp) eqn:Hr; [by intros [= <- _]|].
    destruct (json_of resp) as [v|msg] eqn:Hj; intros [= <- _].
    + by exists resp.
    + right. by exists resp.
  - intros [= <- _]. by left.
Qed.

(** A fetch that ends in an exception stored nothing. *)
Lemma cached_get_failed e st1 :
  cached_get backend now url st = (inl e, st1) ->
  cached_get_body backend url st = (inl e, st1) /\
  cache st1 = cache st /\
  calls st1 = (calls st ++ [url])%list.
Proof.
  intros H. pose proof (cached_get_error_unserved _ _ H) as Hmiss.
  rewrite (cached_get_unserved _ _ _ _ Hmiss) in H.
  destruct (cached_get_body backend url st) as [[e'|v] st'] eqn:Eb;
    [|discriminate].
  destruct (cached_get_body_calls _ _ _ _ _ Eb) as [Hc Hl].
  by injection H as <- <-.
Qed.

End Fetch.

(** X13.  A fetch that ends in an exception found nothing fresh in the
    cache, sent exactly one request and left the cache as it was: a failure
    is never stored and never evicts what is stored.  The exception is an
    [HTTPError] exactly for a 4xx or 5xx answer of the backend. *)
Theorem failed_fetch_leaves_cache
    (backend : string -> get_outcome) (now : Q) (url : string)
    (st st1 : client) (e : fetch_error) :
  cached_get backend now url st = (inl e, st1) ->
  served now url st = None /\
  cache st1 = cache st /\
  calls st1 = (calls st ++ [url])%list /\
  ((exists resp, e = HTTPError resp) <->
   exists resp, backend url = Responded resp /\
                400 <= status_code resp < 600).
Proof.
  intros H. split; [exact (cached_get_error_unserved _ _ _ _ _ _ H)|].
  destruct (cached_get_failed _ _ _ _ _ _ H) as (Hb & Hc & Hl).
  split; [exact Hc|]. split; [exact Hl|].
  pose proof (cached_get_body_result _ _ _ _ _ Hb) as Hr. cbv beta iota in Hr.
  destruct e as [resp|msg].
  - destruct Hr as [Hresp Hs]. apply raises_for_status_range in Hs.
    split; intros _; by exists resp.
  - split; [by intros [? [=]]|]. intros (resp & Hresp & Hrange).
    apply raises_for_status_range in Hrange.
    destruct Hr as [Hr|(resp' & Hr & Hn & _)]; rewrite Hresp in Hr;
      [discriminate|]. injection Hr as <-. congruence.
Qed.

Lemma failed_fetch_leaves_cache_witness :
  served 20 Sample.url10 Sample.client_after_fetch = None /\
  cache {| cache := cache Sample.client_after_fetch;
           calls := [Sample.url10; Sample.url10] |} =
  cache Sample.client_after_fetch /\
  calls {| cache := cache Sample.client_after_fetch;
           calls := [Sample.url10; Sample.url10] |} =
  (calls Sample.client_after_fetch ++ [Sample.url10])%list /\
  ((exists resp, NetworkError "Connection refused" = HTTPError resp) <->
   exists resp, Sample.unreachable Sample.url10 = Responded resp /\
                400 <= status_code resp < 600).
Proof.
  apply (failed_fetch_leaves_cache Sample.unreachable 20 Sample.url10
           Sample.client_after_fetch).
  reflexivity.
Defined.

(** X14.  A fetch for one URL leaves the cache entries of every other URL
    as they were, whatever its outcome. *)
Theorem fetch_keeps_other_entries
    (backend : string -> get_outcome) (now : Q) (url url' : string)
    (st st1 : client) (r : fetch_error + json) :
  cached_get backend now url st = (r, st1) ->
  url' <> url ->
  cache st1 !! url' = cache st !! url'.
Proof.
  intros H Hne.
  destruct (served now url st) as [v|] eqn:Es.
  - rewrite (cached_get_served _ _ _ _ _ Es) in H. by injection H as _ <-.
  - destruct r as [e|v].
    + destruct (cached_get_failed _ _ _ _ _ _ H) as (_ & Hc & _).
      by rewrite Hc.
    + rewrite (cached_get_stores _ _ _ _ _ _ Es H). cbn [cache].
      by rewrite lookup_insert_ne.
Qed.

Lemma fetch_keeps_other_entries_witness :
  cache Sample.client_after_fetch !! "http://127.0.0.1:8000/health" =
  cache Sample.fresh_client !! "http://127.0.0.1:8000/health".
Proof.
  apply (fetch_keeps_other_entries Sample.answering 0 Sample.url10
           "http://127.0.0.1:8000/health" Sample.fresh_client
           Sample.client_after_fetch (inr (JList []))).
  - reflexivity.
  - discriminate.
Defined.

(** X15.  A fetch only ever appends to the request log, and it appends
    its URL exactly when the cache holds no unexpired entry for it. *)
Theorem fetch_requests_iff_unserved
    (backend : string -> get_outcome) (now : Q) (url : string)
    (st st1 : client) (r : fetch_error + json) :
  cached_get backend now url st = (r, st1) ->
  calls st1 =
  (calls st ++ match served now url st with
               | Some _ => []
               | None => [url]
               end)%list.
Proof.
  intros H. destruct (served now url st) as [v|] eqn:Es.
  - rewrite (cached_get_served _ _ _ _ _ Es) in H. injection H as _ <-.
    by rewrite app_nil_r.
  - exact (cached_get_unserved_calls _ _ _ _ _ _ Es H).
Qed.

Lemma fetch_requests_iff_unserved_witness :
  calls Sample.client_after_fetch =
  (calls Sample.client_after_fetch
     ++ match served 14 Sample.url10 Sample.client_after_fetch with
        | Some _ => []
        | None => [Sample.url10]
        end)%list.
Proof.
  apply (fetch_requests_iff_unserved Sample.unreachable 14 Sample.url10
           Sample.client_after_fetch Sample.client_after_fetch
           (inr (JList []))).
  reflexivity.
Defined.

(** X16.  A value that a fetch brings from the backend is the decoded body
    of an answer whose status is not a 4xx or 5xx code: an error answer is
    never returned as data, and never cached. *)
Theorem fetched_value_is_decoded_body
    (backend : string -> get_outcome) (now : Q) (url : string)
    (st st1 : client) (v : json) :
  served now url st = None ->
  cached_get backend now url st = (inr v, st1) ->
  exists resp,
    backend url = Responded resp /\
    ~ (400 <= status_code resp < 600) /\
    json_of resp = Decoded v /\
    cache st1 !! url = Some ((now + 15)%Q, v).
Proof.
  intros Hmiss H.
  pose proof (cached_get_stores _ _ _ _ _ _ Hmiss H) as Hst.
  rewrite (cached_get_unserved _ _ _ _ Hmiss) in H.
  destruct (cached_get_body backend url st) as [[e|v'] st'] eqn:Eb;
    [discriminate|]. injection H as -> _.
  destruct (cached_get_body_result _ _ _ _ _ Eb) as (resp & Hresp & Hs & Hj).
  exists resp. split; [exact Hresp|]. split.
  - intros Hrange. apply raises_for_status_range in Hrange. congruence.
  - split; [exact Hj|]. rewrite Hst. cbn [cache]. apply lookup_insert_eq.
Qed.

Lemma fetched_value_is_decoded_body_witness :
  exists resp,
    Sample.answering Sample.url10 = Responded resp /\
    ~ (400 <= status_code resp < 600) /\
    json_of resp = Decoded (JList []) /\
    cache Sample.client_after_fetch !! Sample.url10 =
    Some ((0 + 15)%Q, JList []).
Proof.
  apply (fetched_value_is_decoded_body Sample.answering 0 Sample.url10
           Sample.fresh_client Sample.client_after_fetch (JList [])).
  - reflexivity.
  - reflexivity.
Defined.

(** X17.  For one base URL and one address, different limits give
    different URLs, hence different cache keys: a result fetched with one
    limit is not served for another. *)
Theorem txs_simple_url_limit_inj (base addr : string) (limit1 limit2 : Z) :
  limit1 <> limit2 ->
  txs_simple_url base addr limit1 <> txs_simple_url base addr limit2.
Proof.
  unfold txs_simple_url. intros Hne H. apply Hne.
  do 4 apply String.app_inj in H.
  by apply (inj pretty) in H.
Qed.

Lemma txs_simple_url_limit_inj_witness :
  txs_simple_url Sample.base_url Sample.wallet 10 <>
  txs_simple_url Sample.base_url Sample.wallet 50.
Proof.
  apply (txs_simple_url_limit_inj Sample.base_url Sample.wallet 10 50).
  discriminate.
Defined.

(* ===================================================================== *)
(** ** Further properties of the type filter *)
(* ===================================================================== *)

Section Order.

(** The order [sorted] sorts by is a total order on strings. *)
Lemma str_le_total_or (x y : string) : str_le x y \/ str_le y x.
Proof. apply String.leb_total. Qed.

Lemma string_leb_trans (x y z : string) :
  String.leb x y = true -> String.leb y z = true -> String.leb x z = true.
Proof.
  unfold String.leb. revert y z.
  induction x as [|a x IH]; intros [|b y] [|c z]; cbn; try done.
  unfold Ascii.compare.
  destruct (N.compare_spec (N_of_ascii a) (N_of_ascii b)) as [Hab|Hab|Hab];
    destruct (N.compare_spec (N_of_ascii b) (N_of_ascii c)) as [Hbc|Hbc|Hbc];
    destruct (N.compare_spec (N_of_ascii a) (N_of_ascii c)) as [Hac|Hac|Hac];
    try done; try lia.
  apply IH.
Qed.

#[local] Instance str_le_total : Total str_le.
Proof. intros x y. apply str_le_total_or. Qed.

#[local] Instance str_le_trans : Transitive str_le.
Proof. intros x y z. apply string_leb_trans. Qed.

#[local] Instance str_le_antisym : AntiSymm eq str_le.
Proof. intros x y. apply String.leb_antisym. Qed.

Lemma sorted_StronglySorted (l : list string) : StronglySorted str_le (sorted l).
Proof. apply StronglySorted_merge_sort; apply _. Qed.

(** Two duplicate-free lists with the same elements are sorted alike. *)
Lemma sorted_same_elements (l1 l2 : list string) :
  NoDup l1 -> NoDup l2 -> (forall x, x ∈ l1 <-> x ∈ l2) ->
  sorted l1 = sorted l2.
Proof.
  intros H1 H2 Hiff.
  apply (StronglySorted_unique str_le); try apply sorted_StronglySorted.
  unfold sorted. rewrite !merge_sort_Permutation.
  by apply NoDup_Permutation.
Qed.

End Order.

Section Rows.

Lemma elem_of_filter_isin (view : list row) (chosen : list string) (r : row) :
  r ∈ List.filter (fun r => isin (col_type r) chosen) view <->
  r ∈ view /\ exists t, col_type r = Some t /\ t ∈ chosen.
Proof.
  rewrite list_elem_of_In, List.filter_In, <- list_elem_of_In.
  split; intros [Hin H]; (split; [exact Hin|]).
  - destruct (col_type r) as [t|] eqn:Et; [|discriminate].
    exists t. split; [done|]. by apply isin_elem_of.
  - destruct H as (t & -> & Ht). by apply isin_elem_of.
Qed.

Lemma render_table_inv (view : list row) selection types chosen rows :
  render_table view selection = Table types chosen rows ->
  view <> [] /\
  types = type_options view /\
  chosen = multiselect types types selection /\
  rows = List.filter (fun r => isin (col_type r) chosen) view.
Proof.
  intros H. destruct view as [|r0 view'] eqn:Ev; [discriminate|].
  rewrite <- Ev in *. rewrite render_table_nonempty in H by (by rewrite Ev).
  injection H as <- <- <-. split; [by rewrite Ev | done].
Qed.

(** Keeping more rows of a table keeps a longer subsequence. *)
Lemma filter_sublist_mono {A} (f g : A -> bool) (l : list A) :
  (forall x, f x = true -> g x = true) ->
  List.filter f l `sublist_of` List.filter g l.
Proof.
  intros Hfg. induction l as [|x l IH]; cbn [List.filter]; [constructor|].
  destruct (f x) eqn:Hf.
  - rewrite (Hfg _ Hf). by constructor.
  - destruct (g x); [by constructor | exact IH].
Qed.

Lemma filter_all {A} (f : A -> bool) (l : list A) :
  (forall x, In x l -> f x = true) -> List.filter f l = l.
Proof.
  induction l as [|x l IH]; cbn [List.filter]; [done|]. intros H.
  rewrite (H x) by (by left). f_equal. apply IH. intros y Hy. apply H. by right.
Qed.

End Rows.

(** X18.  A row is shown exactly when it is a row of the table whose type is
    present and selected; a row without a type is shown under no
    selection. *)
Theorem shown_iff_type_selected
    (view : list row) (selection : option (list string))
    (types chosen : list string) (rows : list row) :
  render_table view selection = Table types chosen rows ->
  (forall r, r ∈ rows <->
             r ∈ view /\ exists t, col_type r = Some t /\ t ∈ chosen) /\
  (forall r, col_type r = None -> r ∉ rows).
Proof.
  intros H. destruct (render_table_inv _ _ _ _ _ H) as (_ & _ & _ & ->).
  split; [intros r; apply elem_of_filter_isin|].
  intros r Hnone Hin. apply elem_of_filter_isin in Hin as (_ & t & Ht & _).
  congruence.
Qed.

Lemma shown_iff_type_selected_witness :
  (forall r, r ∈ [Sample.row_swap] <->
             r ∈ [Sample.row_transfer; Sample.row_swap; Sample.row_untyped] /\
             exists t, col_type r = Some t /\ t ∈ ["SWAP"]) /\
  (forall r, col_type r = None -> r ∉ [Sample.row_swap]).
Proof.
  apply (shown_iff_type_selected
           [Sample.row_transfer; Sample.row_swap; Sample.row_untyped]
           (Some ["SWAP"]) ["SWAP"; "TRANSFER"]).
  reflexivity.
Defined.

(** X19.  The filter options come in ascending order of their strings,
    each below all that follow it. *)
Theorem type_options_sorted (view : list row) :
  StronglySorted str_le (type_options view).
Proof.
  unfold type_options. apply sorted_StronglySorted.
Qed.

(** X20.  The filter options depend on the rows of the table only as a
    collection: reordering the rows gives the same options in the same
    order. *)
Theorem type_options_row_order (view1 view2 : list row) :
  view1 ≡ₚ view2 -> type_options view1 = type_options view2.
Proof.
  intros Hp. unfold type_options.
  apply sorted_same_elements; try apply NoDup_unique.
  intros t. rewrite !elem_of_unique, !elem_of_dropna.
  rewrite !list_elem_of_In, !List.in_map_iff.
  split; intros (r & Hr & Hin); exists r; (split; [exact Hr|]);
    apply list_elem_of_In; apply list_elem_of_In in Hin;
    [by rewrite <- Hp | by rewrite Hp].
Qed.

Lemma type_options_row_order_witness :
  type_options [Sample.row_transfer; Sample.row_swap] =
  type_options [Sample.row_swap; Sample.row_transfer].
Proof.
  apply type_options_row_order. apply Permutation_swap.
Defined.

(** X21.  Selecting more types shows more rows: when every type of one
    selection is in another, the rows shown for the first are a
    subsequence of the rows shown for the second, under the same options. *)
Theorem selection_monotone
    (view : list row) (chosen1 chosen2 types1 types2 c1 c2 : list string)
    (rows1 rows2 : list row) :
  (forall t, t ∈ chosen1 -> t ∈ chosen2) ->
  render_table view (Some chosen1) = Table types1 c1 rows1 ->
  render_table view (Some chosen2) = Table types2 c2 rows2 ->
  types1 = types2 /\ rows1 `sublist_of` rows2.
Proof.
  intros Hsub H1 H2.
  destruct (render_table_inv _ _ _ _ _ H1) as (_ & -> & -> & ->).
  destruct (render_table_inv _ _ _ _ _ H2) as (_ & -> & -> & ->).
  split; [reflexivity|]. cbn [multiselect].
  apply filter_sublist_mono. intros r.
  destruct (col_type r) as [t|]; [|done].
  rewrite !isin_elem_of. apply Hsub.
Qed.

Lemma selection_monotone_witness :
  ["SWAP"; "TRANSFER"] = ["SWAP"; "TRANSFER"] /\
  [Sample.row_swap] `sublist_of` [Sample.row_transfer; Sample.row_swap].
Proof.
  apply (selection_monotone
           [Sample.row_transfer; Sample.row_swap; Sample.row_untyped]
           ["SWAP"] ["TRANSFER"; "SWAP"]
           ["SWAP"; "TRANSFER"] ["SWAP"; "TRANSFER"]
           ["SWAP"] ["TRANSFER"; "SWAP"]).
  - intros t Ht. apply elem_of_cons. right. exact Ht.
  - reflexivity.
  - reflexivity.
Defined.

(** X22.  The rows shown all have a type, so rendering them again hides
    none of them: under the default selection, and under the selection that
    produced them, the page shows exactly these rows. *)
Theorem rerender_shown_rows
    (view : list row) (selection : option (list string))
    (types chosen : list string) (rows : list row) :
  render_table view selection = Table types chosen rows ->
  rows <> [] ->
  render_table rows None =
  Table (type_options rows) (type_options rows) rows /\
  render_table rows (Some chosen) = Table (type_options rows) chosen rows.
Proof.
  intros H Hne. destruct (render_table_inv _ _ _ _ _ H) as (_ & _ & _ & Hrows).
  assert (Hshown : forall r, In r rows ->
            exists t, col_type r = Some t /\ t ∈ chosen).
  { intros r Hin. apply list_elem_of_In in Hin. rewrite Hrows in Hin.
    by apply elem_of_filter_isin in Hin as [_ ?]. }
  rewrite !render_table_nonempty by done. cbn [multiselect].
  split; f_equal; apply filter_all; intros r Hin;
    destruct (Hshown r Hin) as (t & Ht & Hc); rewrite Ht;
    apply isin_elem_of; [|exact Hc].
  apply elem_of_type_options. exists r. split; [by apply list_elem_of_In|done].
Qed.

Lemma rerender_shown_rows_witness :
  render_table [Sample.row_swap] None =
  Table (type_options [Sample.row_swap]) (type_options [Sample.row_swap])
    [Sample.row_swap] /\
  render_table [Sample.row_swap] (Some ["SWAP"]) =
  Table (type_options [Sample.row_swap]) ["SWAP"] [Sample.row_swap].
Proof.
  apply (rerender_shown_rows
           [Sample.row_transfer; Sample.row_swap; Sample.row_untyped]
           (Some ["SWAP"]) ["SWAP"; "TRANSFER"]).
  - reflexivity.
  - discriminate.
Defined.
